(** * projgeom: reprojection of OGC-style geometry objects

    A shallow embedding of [proj.go] (package [projgeom]), the glue between
    the geometry model [geom], the spatial references of [gdal] and the
    projection engine [proj], together with the properties its
    specification states about it.

    - Go interfaces that may be [nil] ([geom.T], [error], [*proj.Proj]) are
      [option]s, [None] being [nil].
    - [float64] is the primitive binary64 type [float].
    - The functions of the libraries the package wraps are the operations
      of the class [Collaborators]; every use of one is
      recorded in a log, so that a statement can say which collaborator
      calls a run made and in which order. *)

From Stdlib Require Import Floats String Ascii List Bool Arith Lia.
Import ListNotations.
Open Scope string_scope.
Open Scope list_scope.

Set Implicit Arguments.

(** ** The geometry model (package [geom]) *)

Record Point := { X : float; Y : float }.
Record PointZ := { ZX : float; ZY : float; ZZ : float }.
Record PointM := { MX : float; MY : float; MM : float }.
Record PointZM := { ZMX : float; ZMY : float; ZMZ : float; ZMM : float }.

Record LineString := { Points : list Point }.
Record LineStringZ := { PointsZ : list PointZ }.
Record LineStringM := { PointsM : list PointM }.
Record LineStringZM := { PointsZM : list PointZM }.

Record Polygon := { Rings : list (list Point) }.
Record PolygonZ := { RingsZ : list (list PointZ) }.
Record PolygonM := { RingsM : list (list PointM) }.
Record PolygonZM := { RingsZM : list (list PointZM) }.

Record MultiLineString := { LineStrings : list LineString }.
Record MultiPolygon := { Polygons : list Polygon }.

(** [reflect.Type]: the identity of a concrete Go type.  The types of the
    geometry model that [proj.go] names have a constructor each; [TNamed]
    stands for any other type (a pointer type, a collection, a type of
    another package). *)
Inductive reflect_Type : Type :=
| TPoint | TPointZ | TPointM | TPointZM
| TLineString | TLineStringZ | TLineStringM | TLineStringZM
| TPolygon | TPolygonZ | TPolygonM | TPolygonZM
| TMultiLineString | TMultiPolygon
| TNamed (name : string).

(** [reflect.Type.String]. *)
Definition Type_String (t : reflect_Type) : string :=
  match t with
  | TPoint => "geom.Point" | TPointZ => "geom.PointZ"
  | TPointM => "geom.PointM" | TPointZM => "geom.PointZM"
  | TLineString => "geom.LineString" | TLineStringZ => "geom.LineStringZ"
  | TLineStringM => "geom.LineStringM" | TLineStringZM => "geom.LineStringZM"
  | TPolygon => "geom.Polygon" | TPolygonZ => "geom.PolygonZ"
  | TPolygonM => "geom.PolygonM" | TPolygonZM => "geom.PolygonZM"
  | TMultiLineString => "geom.MultiLineString"
  | TMultiPolygon => "geom.MultiPolygon"
  | TNamed name => name
  end.

(** A non-nil value of the interface [geom.T]: a dynamic type with its
    data.  [VOther] is a value of a type the package does not know. *)
Inductive Value : Type :=
| VPoint (point : Point)
| VPointZ (pointZ : PointZ)
| VPointM (pointM : PointM)
| VPointZM (pointZM : PointZM)
| VLineString (lineString : LineString)
| VLineStringZ (lineStringZ : LineStringZ)
| VLineStringM (lineStringM : LineStringM)
| VLineStringZM (lineStringZM : LineStringZM)
| VPolygon (polygon : Polygon)
| VPolygonZ (polygonZ : PolygonZ)
| VPolygonM (polygonM : PolygonM)
| VPolygonZM (polygonZM : PolygonZM)
| VMultiLineString (multiLineString : MultiLineString)
| VMultiPolygon (multiPolygon : MultiPolygon)
| VOther (name : string).

(** [geom.T]; [None] is the nil interface. *)
Definition T : Type := option Value.

(** [reflect.TypeOf] on a non-nil interface value. *)
Definition TypeOf (v : Value) : reflect_Type :=
  match v with
  | VPoint _ => TPoint | VPointZ _ => TPointZ
  | VPointM _ => TPointM | VPointZM _ => TPointZM
  | VLineString _ => TLineString | VLineStringZ _ => TLineStringZ
  | VLineStringM _ => TLineStringM | VLineStringZM _ => TLineStringZM
  | VPolygon _ => TPolygon | VPolygonZ _ => TPolygonZ
  | VPolygonM _ => TPolygonM | VPolygonZM _ => TPolygonZM
  | VMultiLineString _ => TMultiLineString
  | VMultiPolygon _ => TMultiPolygon
  | VOther name => TNamed name
  end.

(** The five shapes the dispatcher has a case for. *)
Definition supported (v : Value) : bool :=
  match v with
  | VPoint _ | VLineString _ | VMultiLineString _
  | VPolygon _ | VMultiPolygon _ => true
  | _ => false
  end.

(** ** Errors *)

(** A non-nil [error]: the package's own [UnsupportedGeometryError], or an
    error value made by a collaborator, of which the package only ever reads
    the message. *)
Inductive error_value : Type :=
| UnsupportedGeometryError (Type_ : reflect_Type)
| ForeignError (msg : string).

Definition error : Type := option error_value.

(** The method [Error() string]. *)
Definition Error (e : error_value) : string :=
  match e with
  | UnsupportedGeometryError Type_ =>
      ("projgeom: unsupported geometry type: " ++ Type_String Type_)%string
  | ForeignError msg => msg
  end.

(** [err != nil]. *)
Definition notnil (A : Type) (o : option A) : bool :=
  match o with Some _ => true | None => false end.

(** [err != nil && err.Error() != "No Error"], the guard after both calls
    of [ToProj4]. *)
Definition fatal (err : error) : bool :=
  match err with
  | Some e => negb (String.eqb (Error e) "No Error")
  | None => false
  end.

(** [err != nil && err.Error() == "No Error"], the guard of [ReadPrj]. *)
Definition benign (err : error) : bool :=
  match err with
  | Some e => String.eqb (Error e) "No Error"
  | None => false
  end.

(** ** [strings.Contains] *)

(** [strings.HasPrefix s prefix]. *)
Fixpoint HasPrefix (s prefix : string) : bool :=
  match prefix, s with
  | EmptyString, _ => true
  | String _ _, EmptyString => false
  | String b prefix', String a s' => Ascii.eqb a b && HasPrefix s' prefix'
  end.

(** [strings.Contains s substr]: some suffix of [s] starts with [substr]. *)
Fixpoint Contains (s substr : string) : bool :=
  HasPrefix s substr ||
  match s with
  | EmptyString => false
  | String _ s' => Contains s' substr
  end.

(** What [strings.Contains] decides: [substr] occurs inside [s]. *)
Definition occurs_in (substr s : string) : Prop :=
  exists before after : string, s = (before ++ substr ++ after)%string.

(** ** Collaborators and the log of their calls *)

(** The libraries the package wraps.

    - Package [gdal], the spatial references: [FromWKT] changes the
      reference it is called on, so it hands back the changed reference
      with its error; [zeroSpatialReference] is [gdal.SpatialReference{}].
    - Package [proj], the projection engine: a [*proj.Proj] is an
      [option Proj].
    - [io.Reader] as [ioutil.ReadAll] sees it: the bytes read and the error
      that stopped the reading, if any. *)
Class Collaborators : Type := {
  SpatialReference : Type;
  IsSame : SpatialReference -> SpatialReference -> bool;
  ToProj4 : SpatialReference -> string * error;
  CreateSpatialReference : string -> SpatialReference;
  FromWKT : SpatialReference -> string -> SpatialReference * error;
  zeroSpatialReference : SpatialReference;
  Proj : Type;
  NewProj : string -> option Proj * error;
  Transform2 :
    option Proj -> option Proj -> float -> float -> float * float * error;
  DegToRad : float -> float;
  RadToDeg : float -> float;
  Reader : Type;
  ReadAll : Reader -> string * error
}.

(** One call into a wrapped library. *)
Inductive Call {W : Collaborators} : Type :=
| CallIsSame (sr other : SpatialReference)
| CallToProj4 (sr : SpatialReference)
| CallNewProj (definition : string)
| CallTransform2 (src dst : option Proj) (x y : float)
| CallCreateSpatialReference (wkt : string)
| CallReadAll (r : Reader)
| CallFromWKT (sr : SpatialReference) (wkt : string).

(** [CoordinateTransform]. *)
Record CoordinateTransform {W : Collaborators} : Type := {
  src : option Proj;
  dst : option Proj;
  sameProj : bool;
  inputDegrees : bool;
  outputDegrees : bool
}.

Section Program.

Context {W : Collaborators}.

Definition call_log : Type := list Call.

(** A computation that returns an [A] and the calls it made, oldest
    first. *)
Definition Logged (A : Type) : Type := A * call_log.

Definition ret (A : Type) (a : A) : Logged A := (a, []).

Definition bind (A B : Type) (m : Logged A) (k : A -> Logged B) : Logged B :=
  let (a, log1) := m in
  let (b, log2) := k a in
  (b, log1 ++ log2).

(** Calls a collaborator: [c] names the call, [a] is what it returns. *)
Definition call (A : Type) (c : Call) (a : A) : Logged A := (a, [c]).

Definition result (A : Type) (m : Logged A) : A := fst m.
Definition calls (A : Type) (m : Logged A) : call_log := snd m.

End Program.

Notation "x <- m ;; k" := (bind m (fun x => k))
  (at level 61, m at next level, right associativity).
Notation "' pat <- m ;; k" := (bind m (fun x => match x with pat => k end))
  (at level 61, pat pattern, m at next level, right associativity).

Section Package.

Context {W : Collaborators}.

(** *** The per-shape helpers

    [project] hands each supported shape to a helper of its own.  The
    helpers are part of the package but not of [proj.go]. *)

(** Modelled from the spec: the per-coordinate function of [Reproject],
    which [proj.go] does not define.  A source in degrees is converted to
    radians, the engine transforms the pair from the source context to the
    destination context, a destination in degrees is converted back, and an
    error of the engine is handed on unchanged. *)
Definition projectCoord (x y : float) (src dst : option Proj)
    (inputDegrees outputDegrees : bool) : Logged (float * float * error) :=
  let x1 := if inputDegrees then DegToRad x else x in
  let y1 := if inputDegrees then DegToRad y else y in
  '(x2, y2, err) <- call (CallTransform2 src dst x1 y1)
                         (Transform2 src dst x1 y1) ;;
  if notnil err then ret (x2, y2, err)
  else
    let x3 := if outputDegrees then RadToDeg x2 else x2 in
    let y3 := if outputDegrees then RadToDeg y2 else y2 in
    ret (x3, y3, None).

(** Modelled from the spec: [projectPoint], which [proj.go] calls but does
    not define.  The per-coordinate function is applied to the single coordinate
    pair and the result is a new Point; on an error nothing is returned
    with it. *)
Definition projectPoint (point : Point) (src dst : option Proj)
    (inputDegrees outputDegrees : bool) : Logged (option Point * error) :=
  '(x, y, err) <- projectCoord (X point) (Y point) src dst
                               inputDegrees outputDegrees ;;
  if notnil err then ret (None, err)
  else ret (Some {| X := x; Y := y |}, None).

(** Modelled from the spec: the loop the missing helpers for sequences
    share.  The elements are transformed in order, and the first error ends
    the loop with nothing but that error. *)
Fixpoint projectEach (A B : Type) (step : A -> Logged (option B * error))
    (elements : list A) : Logged (option (list B) * error) :=
  match elements with
  | [] => ret (Some [], None)
  | a :: rest =>
      '(b, err) <- step a ;;
      match b, err with
      | Some b', None =>
          '(bs, err') <- projectEach step rest ;;
          match bs, err' with
          | Some bs', None => ret (Some (b' :: bs'), None)
          | _, _ => ret (None, err')
          end
      | _, _ => ret (None, err)
      end
  end.

(** Modelled from the spec: the loop over one coordinate sequence (the
    points of a LineString or of one ring), part of the missing helpers. *)
Definition projectPoints (points : list Point) (src dst : option Proj)
    (inputDegrees outputDegrees : bool) : Logged (option (list Point) * error) :=
  projectEach
    (fun p => projectPoint p src dst inputDegrees outputDegrees) points.

(** Modelled from the spec: the last step of a missing helper, and of a
    case of [project]: the shape is put around what was computed, if
    anything was. *)
Definition rebuild (A B : Type) (make : A -> B)
    (m : Logged (option A * error)) : Logged (option B * error) :=
  '(a, err) <- m ;;
  ret (option_map make a, err).

(** Modelled from the spec: [projectLineString], which [proj.go] calls but does
    not define.  The per-coordinate function is applied to every coordinate of
    the ordered sequence, order and count preserved. *)
Definition projectLineString (lineString : LineString)
    (src dst : option Proj) (inputDegrees outputDegrees : bool)
  : Logged (option LineString * error) :=
  rebuild (fun points => {| Points := points |})
    (projectPoints (Points lineString) src dst inputDegrees outputDegrees).

(** Modelled from the spec: [projectMultiLineString], which [proj.go] calls but does
    not define.  Each constituent LineString is transformed in the
    original order. *)
Definition projectMultiLineString (multiLineString : MultiLineString)
    (src dst : option Proj) (inputDegrees outputDegrees : bool)
  : Logged (option MultiLineString * error) :=
  rebuild (fun lineStrings => {| LineStrings := lineStrings |})
    (projectEach
       (fun l => projectLineString l src dst inputDegrees outputDegrees)
       (LineStrings multiLineString)).

(** Modelled from the spec: [projectPolygon], which [proj.go] calls but does
    not define.  Each ring, the exterior first and then the interior ones in
    their order, is transformed as a coordinate sequence. *)
Definition projectPolygon (polygon : Polygon)
    (src dst : option Proj) (inputDegrees outputDegrees : bool)
  : Logged (option Polygon * error) :=
  rebuild (fun rings => {| Rings := rings |})
    (projectEach
       (fun ring => projectPoints ring src dst inputDegrees outputDegrees)
       (Rings polygon)).

(** Modelled from the spec: [projectMultiPolygon], which [proj.go] calls but does
    not define.  Each constituent Polygon is transformed in the original
    order. *)
Definition projectMultiPolygon (multiPolygon : MultiPolygon)
    (src dst : option Proj) (inputDegrees outputDegrees : bool)
  : Logged (option MultiPolygon * error) :=
  rebuild (fun polygons => {| Polygons := polygons |})
    (projectEach
       (fun p => projectPolygon p src dst inputDegrees outputDegrees)
       (Polygons multiPolygon)).

(** *** [project] *)

(** The type switch of [project]: [nil] goes through untouched, each of the
    five shapes goes to its helper, and every other dynamic type is an
    [UnsupportedGeometryError] with that type. *)
Definition project (g : T) (src dst : option Proj)
    (inputDegrees outputDegrees : bool) : Logged (T * error) :=
  match g with
  | None => ret (None, None)
  | Some v =>
      match v with
      | VPoint point =>
          rebuild VPoint
            (projectPoint point src dst inputDegrees outputDegrees)
      | VLineString lineString =>
          rebuild VLineString
            (projectLineString lineString src dst inputDegrees outputDegrees)
      | VMultiLineString multiLineString =>
          rebuild VMultiLineString
            (projectMultiLineString multiLineString src dst
               inputDegrees outputDegrees)
      | VPolygon polygon =>
          rebuild VPolygon
            (projectPolygon polygon src dst inputDegrees outputDegrees)
      | VMultiPolygon multiPolygon =>
          rebuild VMultiPolygon
            (projectMultiPolygon multiPolygon src dst
               inputDegrees outputDegrees)
      | _ => ret (None, Some (UnsupportedGeometryError (TypeOf v)))
      end
  end.

(** *** [CoordinateTransform] *)

(** [new(CoordinateTransform)]: every field at its zero value. *)
Definition newCoordinateTransform : CoordinateTransform :=
  {| src := None; dst := None; sameProj := false;
     inputDegrees := false; outputDegrees := false |}.

(** The field assignments [ct.f = v]. *)
Definition set_sameProj (ct : CoordinateTransform) (v : bool) :=
  {| src := src ct; dst := dst ct; sameProj := v;
     inputDegrees := inputDegrees ct; outputDegrees := outputDegrees ct |}.
Definition set_inputDegrees (ct : CoordinateTransform) (v : bool) :=
  {| src := src ct; dst := dst ct; sameProj := sameProj ct;
     inputDegrees := v; outputDegrees := outputDegrees ct |}.
Definition set_outputDegrees (ct : CoordinateTransform) (v : bool) :=
  {| src := src ct; dst := dst ct; sameProj := sameProj ct;
     inputDegrees := inputDegrees ct; outputDegrees := v |}.
Definition set_src (ct : CoordinateTransform) (v : option Proj) :=
  {| src := v; dst := dst ct; sameProj := sameProj ct;
     inputDegrees := inputDegrees ct; outputDegrees := outputDegrees ct |}.
Definition set_dst (ct : CoordinateTransform) (v : option Proj) :=
  {| src := src ct; dst := v; sameProj := sameProj ct;
     inputDegrees := inputDegrees ct; outputDegrees := outputDegrees ct |}.

(** [NewCoordinateTransform].  The results are named in the source, so each
    bare [return] hands back the transform as it stands together with the
    current [err]; the pointer [ct] comes from [new] and is never nil, hence
    a plain record here. *)
Definition NewCoordinateTransform (srcRef dstRef : SpatialReference)
  : Logged (CoordinateTransform * error) :=
  let ct := newCoordinateTransform in
  same <- call (CallIsSame srcRef dstRef) (IsSame srcRef dstRef) ;;
  let ct := set_sameProj ct same in
  if negb (sameProj ct) then
    '(srcproj, err) <- call (CallToProj4 srcRef) (ToProj4 srcRef) ;;
    if fatal err then ret (ct, err)
    else
      let ct := set_inputDegrees ct
                  (Contains srcproj "longlat" || Contains srcproj "latlong") in
      '(handle, err) <- call (CallNewProj srcproj) (NewProj srcproj) ;;
      let ct := set_src ct handle in
      if notnil err then ret (ct, err)
      else
        '(dstproj, err) <- call (CallToProj4 dstRef) (ToProj4 dstRef) ;;
        if fatal err then ret (ct, err)
        else
          let ct := set_outputDegrees ct
                      (Contains dstproj "longlat" ||
                       Contains dstproj "latlong") in
          '(handle, err) <- call (CallNewProj dstproj) (NewProj dstproj) ;;
          let ct := set_dst ct handle in
          if notnil err then ret (ct, err)
          else ret (ct, err)
  else ret (ct, None).

(** [Reproject], the method of a [CoordinateTransform] pointer. *)
Definition Reproject (ct : CoordinateTransform) (g : T)
  : Logged (T * error) :=
  if sameProj ct then ret (g, None)
  else
    '(g2, err) <- project g (src ct) (dst ct)
                    (inputDegrees ct) (outputDegrees ct) ;;
    ret (g2, err).

(** *** [ReadPrj] *)

(** [ReadPrj]: the reference is created first, the stream is read to its
    end, and the text is parsed into the reference. *)
Definition ReadPrj (f : Reader) : Logged (SpatialReference * error) :=
  sr <- call (CallCreateSpatialReference "") (CreateSpatialReference "") ;;
  '(prj, err) <- call (CallReadAll f) (ReadAll f) ;;
  if notnil err then ret (zeroSpatialReference, err)
  else
    '(sr', err) <- call (CallFromWKT sr prj) (FromWKT sr prj) ;;
    let err := if benign err then None else err in
    ret (sr', err).

End Package.

(** ** What the statements speak of *)

(** The coordinate pairs of a supported shape, in the order the dispatcher
    visits them (the other shapes are never walked). *)
Definition coords (v : Value) : list Point :=
  match v with
  | VPoint point => [point]
  | VLineString lineString => Points lineString
  | VMultiLineString multiLineString =>
      flat_map Points (LineStrings multiLineString)
  | VPolygon polygon => concat (Rings polygon)
  | VMultiPolygon multiPolygon =>
      flat_map (fun p => concat (Rings p)) (Polygons multiPolygon)
  | _ => []
  end.

(** The structural shape of a geometry: its variant, its parts and rings
    in their order, and the number of points of each coordinate
    sequence. *)
Inductive Shape : Type :=
| ShPoint
| ShLineString (points : nat)
| ShMultiLineString (parts : list nat)
| ShPolygon (rings : list nat)
| ShMultiPolygon (parts : list (list nat))
| ShOther (type : reflect_Type).

Definition shape (v : Value) : Shape :=
  match v with
  | VPoint _ => ShPoint
  | VLineString l => ShLineString (length (Points l))
  | VMultiLineString m =>
      ShMultiLineString (map (fun l => length (Points l)) (LineStrings m))
  | VPolygon p => ShPolygon (map (@length Point) (Rings p))
  | VMultiPolygon m =>
      ShMultiPolygon
        (map (fun p => map (@length Point) (Rings p)) (Polygons m))
  | _ => ShOther (TypeOf v)
  end.

(** [nil], or the benign string the wrapped library reports on success. *)
Definition nil_or_NoError (err : error) : Prop :=
  err = None \/ exists e, err = Some e /\ Error e = "No Error".

Section Walk.

Context {W : Collaborators}.

Variables (src dst : option Proj) (inputDegrees outputDegrees : bool).

(** The error of the per-coordinate function on a point. *)
Definition coordError (p : Point) : error :=
  snd (result (projectCoord (X p) (Y p) src dst
                 inputDegrees outputDegrees)).

(** The engine calls the per-coordinate function makes on a point. *)
Definition coordCalls (p : Point) : call_log :=
  calls (projectCoord (X p) (Y p) src dst inputDegrees outputDegrees).

(** A walk over a flat sequence of coordinates that stops at the first
    error: the yardstick the nested loops are measured against. *)
Fixpoint walk (points : list Point) : Logged error :=
  match points with
  | [] => ret None
  | p :: rest =>
      match coordError p with
      | Some e => (Some e, coordCalls p)
      | None => let (err, log) := walk rest in (err, coordCalls p ++ log)
      end
  end.

(** A computation [m] over something with the coordinates [points]
    behaves as the walk does: same calls, same error, and a value exactly
    when there is no error. *)
Definition walked (B : Type) (m : Logged (option B * error))
    (points : list Point) : Prop :=
  calls m = calls (walk points) /\
  snd (result m) = result (walk points) /\
  (snd (result m) = None <-> fst (result m) <> None).

(** The same of a step of a loop, for each element it may meet. *)
Definition walks (A B : Type) (step : A -> Logged (option B * error))
    (cs : A -> list Point) : Prop :=
  forall a, walked (step a) (cs a).

End Walk.

(** The first step of a non-identity construction that goes wrong, with
    the error [e] it reports, the transform as the steps before it have
    left it, and the calls made up to it. *)
Inductive setup_failure {W : Collaborators}
    (srcRef dstRef : SpatialReference) (e : error_value)
  : CoordinateTransform -> call_log -> Prop :=
| src_text_fails : forall srcproj,
    ToProj4 srcRef = (srcproj, Some e) ->
    Error e <> "No Error" ->
    setup_failure srcRef dstRef e
      {| src := None; dst := None; sameProj := false;
         inputDegrees := false; outputDegrees := false |}
      [CallIsSame srcRef dstRef; CallToProj4 srcRef]
| src_handle_fails : forall srcproj err handle,
    ToProj4 srcRef = (srcproj, err) -> nil_or_NoError err ->
    NewProj srcproj = (handle, Some e) ->
    setup_failure srcRef dstRef e
      {| src := handle; dst := None; sameProj := false;
         inputDegrees :=
           Contains srcproj "longlat" || Contains srcproj "latlong";
         outputDegrees := false |}
      [CallIsSame srcRef dstRef; CallToProj4 srcRef; CallNewProj srcproj]
| dst_text_fails : forall srcproj err handle dstproj,
    ToProj4 srcRef = (srcproj, err) -> nil_or_NoError err ->
    NewProj srcproj = (handle, None) ->
    ToProj4 dstRef = (dstproj, Some e) ->
    Error e <> "No Error" ->
    setup_failure srcRef dstRef e
      {| src := handle; dst := None; sameProj := false;
         inputDegrees :=
           Contains srcproj "longlat" || Contains srcproj "latlong";
         outputDegrees := false |}
      [CallIsSame srcRef dstRef; CallToProj4 srcRef; CallNewProj srcproj;
       CallToProj4 dstRef]
| dst_handle_fails : forall srcproj err handle dstproj err' handle',
    ToProj4 srcRef = (srcproj, err) -> nil_or_NoError err ->
    NewProj srcproj = (handle, None) ->
    ToProj4 dstRef = (dstproj, err') -> nil_or_NoError err' ->
    NewProj dstproj = (handle', Some e) ->
    setup_failure srcRef dstRef e
      {| src := handle; dst := handle'; sameProj := false;
         inputDegrees :=
           Contains srcproj "longlat" || Contains srcproj "latlong";
         outputDegrees :=
           Contains dstproj "longlat" || Contains dstproj "latlong" |}
      [CallIsSame srcRef dstRef; CallToProj4 srcRef; CallNewProj srcproj;
       CallToProj4 dstRef; CallNewProj dstproj].

(** ** A small world to run the package in

    Spatial references and projection contexts are their Proj4 texts.  The
    spatial-reference library reports the string [No Error] with every
    success, as the wrapped one does; the engine is an equirectangular
    projection on a sphere that rejects latitudes beyond the poles. *)
Module Sample.

Definition NoError : error := Some (ForeignError "No Error").

Definition halfPi : float := 0x1.921fb54442d18p+0%float.
Definition radius : float := 6378137%float.

#[global] Instance world : Collaborators := {|
  SpatialReference := string;
  IsSame := String.eqb;
  ToProj4 := fun sr =>
    if HasPrefix sr "+proj=" then (sr, NoError)
    else ("", Some (ForeignError "Unsupported SRS"));
  CreateSpatialReference := fun wkt => wkt;
  FromWKT := fun sr wkt =>
    if HasPrefix wkt "+proj=" then (wkt, NoError)
    else (sr, Some (ForeignError "Corrupt data"));
  zeroSpatialReference := "";
  Proj := string;
  NewProj := fun definition =>
    if Contains definition "+proj=" && negb (Contains definition "+proj=none")
    then (Some definition, None)
    else (None, Some (ForeignError "unknown projection id"));
  Transform2 := fun src dst x y =>
    match src, dst with
    | Some _, Some d =>
        if PrimFloat.ltb halfPi (PrimFloat.abs y)
        then (x, y, Some (ForeignError "latitude or longitude exceeded limits"))
        else if Contains d "longlat" then (x, y, None)
        else (PrimFloat.mul radius x, PrimFloat.mul radius y, None)
    | _, _ => (x, y, Some (ForeignError "projection not initialized"))
    end;
  DegToRad := fun deg =>
    PrimFloat.div (PrimFloat.mul deg (PrimFloat.mul 2 halfPi)) 180;
  RadToDeg := fun rad =>
    PrimFloat.div (PrimFloat.mul rad 180) (PrimFloat.mul 2 halfPi);
  (* a stream that yields its text, or one that breaks at once *)
  Reader := option string;
  ReadAll := fun r =>
    match r with
    | Some text => (text, None)
    | None => ("", Some (ForeignError "unexpected EOF"))
    end
|}.

Definition wgs84 : string := "+proj=longlat +datum=WGS84 +no_defs".
Definition sphere : string := "+proj=eqc +R=6378137 +units=m".
Definition broken : string := "LOCAL_CS[]".
Definition unknown : string := "+proj=none".

Definition pt (x y : float) : Point := {| X := x; Y := y |}.

Definition stPaul : Point := pt (-93.125) 44.9375.
Definition minneapolis : Point := pt (-93.25) 44.96875.
Definition beyondPole : Point := pt 10 120.

Definition summit : PointZ := {| ZX := (-93.125); ZY := 44.9375; ZZ := 256 |}.

Definition road : LineString := {| Points := [stPaul; minneapolis] |}.
Definition lot : Polygon :=
  {| Rings := [[stPaul; minneapolis; pt (-93) 45; stPaul];
               [pt (-93.125) 44.953125; pt (-93.0625) 44.953125;
                pt (-93.125) 44.953125]] |}.
Definition badLot : Polygon :=
  {| Rings := [[stPaul; minneapolis; stPaul];
               [minneapolis; beyondPole; pt 0 130; minneapolis]] |}.

End Sample.

(** ** Strings *)

Lemma HasPrefix_spec (prefix s : string) :
  HasPrefix s prefix = true <-> exists rest, s = (prefix ++ rest)%string.
Proof.
  revert s; induction prefix as [|b prefix IH]; intros [|a s]; simpl.
  - split; [now exists EmptyString | reflexivity].
  - split; [now exists (String a s) | reflexivity].
  - split; [discriminate | intros [rest H]; discriminate].
  - rewrite andb_true_iff, Ascii.eqb_eq, IH. split.
    + intros [-> [rest ->]]. now exists rest.
    + intros [rest H]. injection H as -> ->.
      split; [reflexivity | now exists rest].
Qed.

Lemma Contains_spec (substr s : string) :
  Contains s substr = true <-> occurs_in substr s.
Proof.
  unfold occurs_in. induction s as [|a s IH].
  - cbn [Contains]. rewrite orb_false_r, HasPrefix_spec. split.
    + intros [rest H]. now exists EmptyString, rest.
    + intros [before [after H]]. destruct before; [| discriminate].
      now exists after.
  - cbn [Contains]. rewrite orb_true_iff, HasPrefix_spec, IH. split.
    + intros [[rest H] | [before [after H]]].
      * now exists EmptyString, rest.
      * exists (String a before), after. simpl. now rewrite H.
    + intros [before [after H]]. destruct before as [|b before].
      * left. now exists after.
      * right. simpl in H. injection H as _ H. now exists before, after.
Qed.

Lemma degrees_flag_spec (text : string) :
  Contains text "longlat" || Contains text "latlong" = true <->
  occurs_in "longlat" text \/ occurs_in "latlong" text.
Proof. now rewrite orb_true_iff, !Contains_spec. Qed.

(** ** Errors *)

Lemma fatal_nil_or_NoError (err : error) :
  fatal err = false <-> nil_or_NoError err.
Proof.
  unfold fatal, nil_or_NoError. destruct err as [e|].
  - rewrite negb_false_iff, String.eqb_eq. split.
    + intros H. right. now exists e.
    + intros [H | [e' [H H']]]; [discriminate | now injection H as ->].
  - split; [now left | reflexivity].
Qed.

Lemma fatal_Some (e : error_value) :
  fatal (Some e) = true <-> Error e <> "No Error".
Proof. simpl. now rewrite negb_true_iff, String.eqb_neq. Qed.

Lemma benign_Some (e : error_value) :
  benign (Some e) = true <-> Error e = "No Error".
Proof. simpl. apply String.eqb_eq. Qed.

Section Properties.

Context {W : Collaborators}.

(** ** The dispatcher on what it does not walk *)

(** C3. The nil geometry goes through [Reproject] as it is: the result is
    nil with a nil error and no collaborator is called, whether the
    transform is the identity or not. *)
Theorem Reproject_nil (ct : CoordinateTransform) :
  Reproject ct None = ret (None, None).
Proof. unfold Reproject. now destruct (sameProj ct). Qed.

(** C4. A geometry value whose dynamic type is none of Point, LineString,
    MultiLineString, Polygon and MultiPolygon makes the dispatcher fail
    with an [UnsupportedGeometryError] that carries that type; the geometry
    returned is nil and no coordinate was handed to the engine. *)
Theorem project_unsupported (v : Value) (src dst : option Proj)
    (inputDegrees outputDegrees : bool) :
  supported v = false ->
  project (Some v) src dst inputDegrees outputDegrees =
  ret (None, Some (UnsupportedGeometryError (TypeOf v))).
Proof. destruct v; simpl; intros H; (discriminate || reflexivity). Qed.

(** ** The identity transform *)

(** C10. On an identity transform [Reproject] returns any geometry value
    at all as it is, with a nil error: the dispatcher is never reached, so
    a shape it would reject is returned too. *)
Theorem Reproject_identity_any (ct : CoordinateTransform) (g : T) :
  sameProj ct = true ->
  Reproject ct g = ret (g, None).
Proof. unfold Reproject. now intros ->. Qed.

(** C2. For spatial references that compare equal the constructor marks
    the transform as the identity and does nothing else: both handles stay
    nil, both flags stay false, the error is nil, and the one collaborator
    call made is the comparison (no [ToProj4], no [NewProj]). *)
Theorem NewCoordinateTransform_same (srcRef dstRef : SpatialReference) :
  IsSame srcRef dstRef = true ->
  NewCoordinateTransform srcRef dstRef =
  ({| src := None; dst := None; sameProj := true;
      inputDegrees := false; outputDegrees := false |}, None,
   [CallIsSame srcRef dstRef]).
Proof.
  intros H. unfold NewCoordinateTransform, call, bind. simpl. rewrite H.
  reflexivity.
Qed.

(** C1. A transform built from equal spatial references is built without
    error, and its [Reproject] returns a geometry of each supported shape
    unchanged, with a nil error. *)
Theorem Reproject_same_reference (srcRef dstRef : SpatialReference)
    (v : Value) :
  IsSame srcRef dstRef = true ->
  supported v = true ->
  let built := result (NewCoordinateTransform srcRef dstRef) in
  snd built = None /\
  result (Reproject (fst built) (Some v)) = (Some v, None).
Proof.
  intros H _. unfold NewCoordinateTransform, call, bind. simpl. rewrite H.
  simpl. now split.
Qed.

(** ** Construction of a non-identity transform *)

(** Runs the constructor symbolically once the outcomes of the
    collaborator calls are known. *)
Ltac run_constructor :=
  unfold NewCoordinateTransform, call, bind, ret, result, calls;
  repeat (cbn -[Contains fatal];
          match goal with
          | H : IsSame _ _ = _ |- _ => rewrite H; clear H
          | H : ToProj4 _ = _ |- _ => rewrite H; clear H
          | H : NewProj _ = _ |- _ => rewrite H; clear H
          | H : fatal _ = _ |- _ => rewrite H; clear H
          end);
  cbn -[Contains fatal].

(** The whole of a construction in which no step fails. *)
Lemma NewCoordinateTransform_complete (srcRef dstRef : SpatialReference)
    (srcproj dstproj : string) (err err' : error)
    (handle handle' : option Proj) :
  IsSame srcRef dstRef = false ->
  ToProj4 srcRef = (srcproj, err) -> nil_or_NoError err ->
  NewProj srcproj = (handle, None) ->
  ToProj4 dstRef = (dstproj, err') -> nil_or_NoError err' ->
  NewProj dstproj = (handle', None) ->
  NewCoordinateTransform srcRef dstRef =
  ({| src := handle; dst := handle'; sameProj := false;
      inputDegrees :=
        Contains srcproj "longlat" || Contains srcproj "latlong";
      outputDegrees :=
        Contains dstproj "longlat" || Contains dstproj "latlong" |}, None,
   [CallIsSame srcRef dstRef; CallToProj4 srcRef; CallNewProj srcproj;
    CallToProj4 dstRef; CallNewProj dstproj]).
Proof.
  intros Hsame Hs Hok Hh Hd Hok' Hh'.
  apply fatal_nil_or_NoError in Hok, Hok'.
  run_constructor. reflexivity.
Qed.

(** C5. In a non-identity construction each side's flag is computed from
    that side's own Proj4 text and nothing else: once the source text is
    obtained, [inputDegrees] is true exactly when [longlat] or [latlong]
    occurs in it, and once the construction has gone on to obtain the
    destination text, [outputDegrees] is true exactly when one of the two
    occurs in that one. *)
Theorem degrees_flags (srcRef dstRef : SpatialReference) :
  IsSame srcRef dstRef = false ->
  let ct := fst (result (NewCoordinateTransform srcRef dstRef)) in
  (forall srcproj err,
     ToProj4 srcRef = (srcproj, err) -> nil_or_NoError err ->
     (inputDegrees ct = true <->
      occurs_in "longlat" srcproj \/ occurs_in "latlong" srcproj)) /\
  (forall srcproj err handle dstproj err',
     ToProj4 srcRef = (srcproj, err) -> nil_or_NoError err ->
     NewProj srcproj = (handle, None) ->
     ToProj4 dstRef = (dstproj, err') -> nil_or_NoError err' ->
     (outputDegrees ct = true <->
      occurs_in "longlat" dstproj \/ occurs_in "latlong" dstproj)).
Proof.
  intros Hsame ct. subst ct. split.
  - intros srcproj err Hs Hok. apply fatal_nil_or_NoError in Hok.
    rewrite <- degrees_flag_spec.
    run_constructor.
    destruct (NewProj srcproj) as [handle [e|]]; cbn -[Contains fatal];
      [reflexivity |].
    destruct (ToProj4 dstRef) as [dstproj err'].
    destruct (fatal err'); cbn -[Contains fatal]; [reflexivity |].
    destruct (NewProj dstproj) as [handle' [e|]]; reflexivity.
  - intros srcproj err handle dstproj err' Hs Hok Hh Hd Hok'.
    apply fatal_nil_or_NoError in Hok, Hok'.
    rewrite <- degrees_flag_spec.
    run_constructor.
    destruct (NewProj dstproj) as [handle' [e|]]; reflexivity.
Qed.

(** C6. The string [No Error] reported by a serialization or a parse is
    taken for success.  In the constructor, whether [ToProj4] reports nil
    or [No Error] on either side, every later step still runs and the
    error returned is the one of the last handle construction, never the
    string.  In [ReadPrj], a parse that reports [No Error] yields the
    parsed reference with a nil error. *)
Theorem NoError_is_success :
  (forall (srcRef dstRef : SpatialReference) (srcproj dstproj : string)
          (err err' err'' : error) (handle handle' : option Proj),
     IsSame srcRef dstRef = false ->
     ToProj4 srcRef = (srcproj, err) -> nil_or_NoError err ->
     NewProj srcproj = (handle, None) ->
     ToProj4 dstRef = (dstproj, err') -> nil_or_NoError err' ->
     NewProj dstproj = (handle', err'') ->
     NewCoordinateTransform srcRef dstRef =
     ({| src := handle; dst := handle'; sameProj := false;
         inputDegrees :=
           Contains srcproj "longlat" || Contains srcproj "latlong";
         outputDegrees :=
           Contains dstproj "longlat" || Contains dstproj "latlong" |},
      err'',
      [CallIsSame srcRef dstRef; CallToProj4 srcRef; CallNewProj srcproj;
       CallToProj4 dstRef; CallNewProj dstproj])) /\
  (forall (f : Reader) (prj : string) (sr : SpatialReference)
          (e : error_value),
     ReadAll f = (prj, None) ->
     FromWKT (CreateSpatialReference "") prj = (sr, Some e) ->
     Error e = "No Error" ->
     result (ReadPrj f) = (sr, None)).
Proof.
  split.
  - intros srcRef dstRef srcproj dstproj err err' err'' handle handle'
      Hsame Hs Hok Hh Hd Hok' Hh'.
    apply fatal_nil_or_NoError in Hok, Hok'.
    run_constructor. now destruct err''.
  - intros f prj sr e Hread Hparse Hmsg.
    apply benign_Some in Hmsg.
    unfold ReadPrj, call, bind, ret, result. cbn -[benign].
    rewrite Hread. cbn -[benign]. rewrite Hparse. cbn -[benign].
    now rewrite Hmsg.
Qed.

(** X1. When reading the stream fails, whatever the text of the error,
    [ReadPrj] returns the zero spatial reference with the error of the
    read; the reference it had created is dropped and nothing is parsed. *)
Lemma ReadPrj_read_error (f : Reader) (prj : string) (e : error_value) :
  ReadAll f = (prj, Some e) ->
  ReadPrj f =
  (zeroSpatialReference, Some e,
   [CallCreateSpatialReference ""; CallReadAll f]).
Proof.
  intros H. unfold ReadPrj, call, bind, ret. cbn. now rewrite H.
Qed.

(** X2. When the stream is read and the parse reports an error other
    than [No Error], [ReadPrj] returns that error as it is, together with
    the reference the parse was run on (not the zero reference). *)
Lemma ReadPrj_parse_error (f : Reader) (prj : string)
    (sr : SpatialReference) (e : error_value) :
  ReadAll f = (prj, None) ->
  FromWKT (CreateSpatialReference "") prj = (sr, Some e) ->
  Error e <> "No Error" ->
  result (ReadPrj f) = (sr, Some e).
Proof.
  intros Hread Hparse Hmsg. apply String.eqb_neq in Hmsg.
  unfold ReadPrj, call, bind, ret, result. cbn -[benign].
  rewrite Hread. cbn -[benign]. rewrite Hparse. cbn. now rewrite Hmsg.
Qed.

(** C7. In a non-identity construction, when a serialization reports an
    error other than [No Error] or a handle construction reports an error,
    the constructor stops there.  It returns that very error and has made
    no collaborator call past the failing one.  What comes back with the
    error is no usable transform but the unfinished one, exactly as the
    steps before the failing one have left it: it is not marked as the
    identity, so [Reproject] will not pass geometries through it, and its
    destination handle is nil or is what the failed construction handed
    back with the error, never a handle whose construction succeeded. *)
Theorem NewCoordinateTransform_aborts (srcRef dstRef : SpatialReference)
    (e : error_value) (unfinished : CoordinateTransform) (log : call_log) :
  IsSame srcRef dstRef = false ->
  setup_failure srcRef dstRef e unfinished log ->
  NewCoordinateTransform srcRef dstRef = (unfinished, Some e, log) /\
  sameProj unfinished = false /\
  (dst unfinished = None \/
   NewProj (fst (ToProj4 dstRef)) = (dst unfinished, Some e)) /\
  (forall g, supported g = false ->
     Reproject unfinished (Some g) =
     ret (None, Some (UnsupportedGeometryError (TypeOf g)))).
Proof.
  intros Hsame Hfail.
  assert (Hrun : NewCoordinateTransform srcRef dstRef =
                 (unfinished, Some e, log) /\
                 sameProj unfinished = false /\
                 (dst unfinished = None \/
                  NewProj (fst (ToProj4 dstRef)) =
                  (dst unfinished, Some e))).
  { destruct Hfail as
      [srcproj Hs Hmsg
      |srcproj err handle Hs Hok Hh
      |srcproj err handle dstproj Hs Hok Hh Hd Hmsg
      |srcproj err handle dstproj err' handle' Hs Hok Hh Hd Hok' Hh'];
      try apply fatal_Some in Hmsg;
      try apply fatal_nil_or_NoError in Hok;
      try apply fatal_nil_or_NoError in Hok'.
    - run_constructor. repeat split. now left.
    - run_constructor. repeat split. now left.
    - run_constructor. repeat split. now left.
    - assert (Hkeep : NewProj (fst (ToProj4 dstRef)) = (handle', Some e))
        by now rewrite Hd.
      run_constructor. repeat split. now right. }
  destruct Hrun as (Hrun & Hct & Hdst). repeat split; try assumption.
  intros g Hg. unfold Reproject. rewrite Hct.
  destruct g; try discriminate Hg; reflexivity.
Qed.

(** Construction is all or nothing: a non-identity construction that
    returns a nil error went through every step, and one that returns an
    error failed at a step of [setup_failure]. *)
Lemma NewCoordinateTransform_all_or_nothing
    (srcRef dstRef : SpatialReference) :
  IsSame srcRef dstRef = false ->
  let run := NewCoordinateTransform srcRef dstRef in
  (snd (result run) = None /\
   exists srcproj err handle dstproj err' handle',
     ToProj4 srcRef = (srcproj, err) /\ nil_or_NoError err /\
     NewProj srcproj = (handle, None) /\
     ToProj4 dstRef = (dstproj, err') /\ nil_or_NoError err' /\
     NewProj dstproj = (handle', None) /\
     src (fst (result run)) = handle /\ dst (fst (result run)) = handle') \/
  (exists e, snd (result run) = Some e /\
             setup_failure srcRef dstRef e (fst (result run)) (calls run)).
Proof.
  intros Hsame run. subst run.
  destruct (ToProj4 srcRef) as [srcproj err] eqn:Hs.
  destruct (fatal err) eqn:Hok.
  { right. destruct err as [e|]; [| discriminate].
    exists e. pose proof Hs as Hs'. pose proof Hok as Hok'.
    apply fatal_Some in Hok'.
    run_constructor. split; [reflexivity |].
    eapply src_text_fails; eassumption. }
  pose proof Hok as Hnil. apply fatal_nil_or_NoError in Hnil.
  destruct (NewProj srcproj) as [handle [e|]] eqn:Hh.
  { right. exists e. pose proof Hs as Hs'. pose proof Hh as Hh'.
    run_constructor. split; [reflexivity |].
    eapply src_handle_fails; eassumption. }
  destruct (ToProj4 dstRef) as [dstproj err'] eqn:Hd.
  destruct (fatal err') eqn:Hok'.
  { right. destruct err' as [e|]; [| discriminate].
    exists e. pose proof Hs as Hs'. pose proof Hh as Hh'.
    pose proof Hd as Hd'. pose proof Hok' as Hmsg. apply fatal_Some in Hmsg.
    run_constructor. split; [reflexivity |].
    eapply dst_text_fails; eassumption. }
  pose proof Hok' as Hnil'. apply fatal_nil_or_NoError in Hnil'.
  destruct (NewProj dstproj) as [handle' [e|]] eqn:Hh'.
  - right. exists e. pose proof Hs as Hs'. pose proof Hh as Hh2.
    pose proof Hd as Hd'. pose proof Hh' as Hh3.
    run_constructor. split; [reflexivity |].
    eapply dst_handle_fails; eassumption.
  - left. pose proof Hs as Hs'. pose proof Hh as Hh2.
    pose proof Hd as Hd'. pose proof Hh' as Hh3.
    run_constructor. split; [reflexivity |].
    now exists srcproj, err, handle, dstproj, err', handle'.
Qed.

End Properties.

(** ** The dispatcher on the shapes it walks *)

Section Dispatch.

Context {W : Collaborators}.
Variables (src dst : option Proj) (inputDegrees outputDegrees : bool).

Local Abbreviation walk' := (walk src dst inputDegrees outputDegrees).
Local Abbreviation coordError' :=
  (coordError src dst inputDegrees outputDegrees).
Local Abbreviation coordCalls' :=
  (coordCalls src dst inputDegrees outputDegrees).
Local Abbreviation walked' := (walked src dst inputDegrees outputDegrees).
Local Abbreviation walks' := (walks src dst inputDegrees outputDegrees).

Lemma walk_app (points points' : list Point) :
  walk' (points ++ points') =
  match walk' points with
  | (Some e, log) => (Some e, log)
  | (None, log) => let (err, log') := walk' points' in (err, log ++ log')
  end.
Proof.
  induction points as [|p points IH]; simpl.
  - now destruct (walk' points').
  - destruct (coordError' p); [reflexivity |].
    rewrite IH. destruct (walk' points) as [[e|] log]; [reflexivity |].
    destruct (walk' points') as [err log']. now rewrite app_assoc.
Qed.

(** A walk over a sequence with a coordinate the per-coordinate function
    fails on stops at the first such coordinate. *)
Lemma walk_first_failure (points : list Point) (c : Point) :
  In c points -> coordError' c <> None ->
  exists before bad after e,
    points = before ++ bad :: after /\
    Forall (fun p => coordError' p = None) before /\
    coordError' bad = Some e /\
    walk' points = (Some e, flat_map coordCalls' (before ++ [bad])).
Proof.
  induction points as [|p points IH]; intros Hin Hbad; [destruct Hin |].
  destruct (coordError' p) as [e|] eqn:Hp.
  - exists [], p, points, e. simpl. rewrite Hp, app_nil_r.
    repeat split. constructor.
  - destruct Hin as [-> | Hin]; [contradiction |].
    destruct (IH Hin Hbad) as (before & bad & after & e & -> & Hok & He & Hw).
    exists (p :: before), bad, after, e. simpl. rewrite Hp, Hw.
    repeat split; [now constructor | assumption].
Qed.

Lemma projectPoint_walks :
  walks' (fun p => projectPoint p src dst inputDegrees outputDegrees)
         (fun p => [p]).
Proof.
  intros p. unfold walked, projectPoint, coordError, coordCalls. simpl.
  unfold coordError, coordCalls, bind, result, calls.
  destruct (projectCoord (X p) (Y p) src dst inputDegrees outputDegrees)
    as [[[x y] [e|]] log]; simpl; rewrite app_nil_r;
    repeat split; intros; congruence.
Qed.

Lemma projectEach_walks (A B : Type)
    (step : A -> Logged (option B * error)) (cs : A -> list Point) :
  walks' step cs -> walks' (projectEach step) (flat_map cs).
Proof.
  intros Hstep elements. unfold walked.
  induction elements as [|a rest IH]; simpl.
  - repeat split; intros; congruence.
  - rewrite walk_app. destruct (Hstep a) as (Hlog & Herr & Hval).
    unfold bind, result, calls in *.
    destruct (step a) as [[b err] log1]. simpl in Hlog, Herr, Hval.
    destruct (walk' (cs a)) as [werr wlog]. simpl in Hlog, Herr.
    subst wlog werr.
    destruct err as [e|].
    + destruct b as [b|]; simpl; rewrite app_nil_r;
        repeat split; intros; congruence.
    + destruct b as [b|]; [| now destruct (proj1 Hval)].
      destruct IH as (IHlog & IHerr & IHval).
      destruct (projectEach step rest) as [[bs err'] log2].
      destruct (walk' (flat_map cs rest)) as [werr wlog].
      simpl in IHlog, IHerr, IHval. subst wlog werr.
      destruct err' as [e'|].
      * destruct bs as [bs|]; simpl; rewrite app_nil_r;
          repeat split; intros; congruence.
      * destruct bs as [bs|]; [| now destruct (proj1 IHval)].
        simpl. rewrite app_nil_r. repeat split; intros; congruence.
Qed.

Lemma rebuild_walked (A B : Type) (make : A -> B)
    (m : Logged (option A * error)) (points : list Point) :
  walked' m points -> walked' (rebuild make m) points.
Proof.
  unfold walked, rebuild, bind, result, calls.
  destruct m as [[a err] log]. simpl. rewrite app_nil_r.
  intros (Hlog & Herr & Hval). repeat split; try assumption.
  - intros H. apply Hval in H. now destruct a.
  - intros H. apply Hval. now destruct a.
Qed.

Lemma flat_map_singleton (A : Type) (l : list A) :
  flat_map (fun a => [a]) l = l.
Proof. induction l as [|a l IH]; simpl; congruence. Qed.

Lemma flat_map_self (A : Type) (l : list (list A)) :
  flat_map (fun a => a) l = concat l.
Proof. induction l as [|a l IH]; simpl; congruence. Qed.

Lemma projectPoints_walks :
  walks' (fun points =>
            projectPoints points src dst inputDegrees outputDegrees)
         (fun points => points).
Proof.
  intros points. unfold projectPoints.
  rewrite <- (flat_map_singleton points) at 2.
  apply projectEach_walks, projectPoint_walks.
Qed.

Lemma projectLineString_walks :
  walks' (fun l => projectLineString l src dst inputDegrees outputDegrees)
         Points.
Proof. intros l. apply rebuild_walked, projectPoints_walks. Qed.

Lemma projectPolygon_walks :
  walks' (fun p => projectPolygon p src dst inputDegrees outputDegrees)
         (fun p => concat (Rings p)).
Proof.
  intros p. apply rebuild_walked. rewrite <- flat_map_self.
  apply projectEach_walks, projectPoints_walks.
Qed.

(** On a supported shape the dispatcher is a walk over the coordinates of
    the geometry. *)
Lemma project_walked (v : Value) :
  supported v = true ->
  walked' (project (Some v) src dst inputDegrees outputDegrees) (coords v).
Proof.
  destruct v; try discriminate; intros _; simpl; apply rebuild_walked.
  - apply projectPoint_walks.
  - apply projectLineString_walks.
  - apply projectPolygon_walks.
  - apply rebuild_walked, projectEach_walks, projectLineString_walks.
  - apply rebuild_walked, projectEach_walks, projectPolygon_walks.
Qed.

(** C8. When the per-coordinate function fails on a coordinate of a
    supported geometry, the dispatcher fails at once: it stops at the first
    coordinate, in the order of the geometry, on which the function fails,
    returns the error of that coordinate with a nil geometry, and has
    called the engine on no coordinate past it. *)
Theorem project_fails_at_first_error (v : Value) (c : Point) :
  supported v = true ->
  In c (coords v) ->
  coordError' c <> None ->
  exists before bad after e,
    coords v = before ++ bad :: after /\
    Forall (fun p => coordError' p = None) before /\
    coordError' bad = Some e /\
    result (project (Some v) src dst inputDegrees outputDegrees) =
      (None, Some e) /\
    calls (project (Some v) src dst inputDegrees outputDegrees) =
      flat_map coordCalls' (before ++ [bad]).
Proof.
  intros Hv Hin Hbad.
  destruct (walk_first_failure _ _ Hin Hbad)
    as (before & bad & after & e & Hsplit & Hok & He & Hw).
  exists before, bad, after, e.
  destruct (project_walked v Hv) as (Hlog & Herr & Hval).
  rewrite Hw in Hlog, Herr. unfold result, calls in *.
  revert Hlog Herr Hval.
  destruct (project (Some v) src dst inputDegrees outputDegrees)
    as [[g err] log].
  cbn [fst snd]. intros -> -> Hval.
  repeat split; try assumption.
  destruct g as [g|]; [| reflexivity].
  assert (Some e = None) by (apply Hval; discriminate). discriminate.
Qed.

Lemma walk_no_failure (points : list Point) :
  Forall (fun p => coordError' p = None) points ->
  walk' points = (None, flat_map coordCalls' points).
Proof.
  induction 1 as [|p points Hp _ IH]; simpl; [reflexivity |].
  now rewrite Hp, IH.
Qed.

(** The dispatcher does return a geometry when the per-coordinate function
    fails on no coordinate, after one engine call per coordinate. *)
Lemma project_succeeds (v : Value) :
  supported v = true ->
  Forall (fun p => coordError' p = None) (coords v) ->
  exists v',
    project (Some v) src dst inputDegrees outputDegrees =
    (Some v', None, flat_map coordCalls' (coords v)).
Proof.
  intros Hv Hok. destruct (project_walked v Hv) as (Hlog & Herr & Hval).
  rewrite (walk_no_failure Hok) in Hlog, Herr. unfold result, calls in *.
  revert Hlog Herr Hval.
  destruct (project (Some v) src dst inputDegrees outputDegrees)
    as [[g err] log].
  cbn [fst snd]. intros -> -> Hval.
  destruct g as [v'|]; [now exists v' |].
  now destruct (proj1 Hval).
Qed.

(** *** Successful runs *)

Lemma rebuild_success (A B : Type) (make : A -> B)
    (m : Logged (option A * error)) (b : B) :
  result (rebuild make m) = (Some b, None) ->
  exists a, result m = (Some a, None) /\ b = make a.
Proof.
  unfold rebuild, bind, result. destruct m as [[[a|] err] log]; simpl;
    intros H; [| discriminate].
  injection H as <- ->. now exists a.
Qed.

Lemma projectEach_success (A B : Type)
    (step : A -> Logged (option B * error)) (elements : list A)
    (out : list B) :
  result (projectEach step elements) = (Some out, None) ->
  Forall2 (fun a b => result (step a) = (Some b, None)) elements out.
Proof.
  revert out. induction elements as [|a rest IH]; intros out; simpl.
  - intros H. injection H as <-. constructor.
  - unfold bind, result in *.
    destruct (step a) as [[[b|] [e|]] log1] eqn:Hstep; simpl;
      try discriminate.
    destruct (projectEach step rest) as [[[bs|] [e|]] log2]; simpl;
      try discriminate.
    intros H. injection H as <-.
    constructor; [now rewrite Hstep | now apply IH].
Qed.

Lemma Forall2_map_eq (A B C : Type) (R : A -> B -> Prop)
    (f : A -> C) (g : B -> C) (l : list A) (l' : list B) :
  (forall a b, R a b -> g b = f a) ->
  Forall2 R l l' -> map g l' = map f l.
Proof.
  intros Hfg. induction 1 as [|a b l l' Hab _ IH]; simpl; [reflexivity |].
  now rewrite (Hfg _ _ Hab), IH.
Qed.

Lemma projectPoints_length (points out : list Point) :
  result (projectPoints points src dst inputDegrees outputDegrees) =
    (Some out, None) ->
  length out = length points.
Proof.
  intros H. apply projectEach_success in H. symmetry.
  exact (Forall2_length H).
Qed.

Lemma projectLineString_length (l l' : LineString) :
  result (projectLineString l src dst inputDegrees outputDegrees) =
    (Some l', None) ->
  length (Points l') = length (Points l).
Proof.
  intros H. apply rebuild_success in H as (points & H & ->).
  now apply projectPoints_length.
Qed.

Lemma projectPolygon_lengths (p p' : Polygon) :
  result (projectPolygon p src dst inputDegrees outputDegrees) =
    (Some p', None) ->
  map (@length Point) (Rings p') = map (@length Point) (Rings p).
Proof.
  intros H. apply rebuild_success in H as (rings & H & ->).
  apply projectEach_success in H. simpl.
  apply Forall2_map_eq with (2 := H). intros ring ring'.
  apply projectPoints_length.
Qed.

(** C9. A successful run of the dispatcher returns a geometry of the
    structural shape of its input: the same variant, the same parts and
    rings in the same order, and as many points in each coordinate
    sequence. *)
Theorem project_preserves_shape (v v' : Value) :
  result (project (Some v) src dst inputDegrees outputDegrees) =
    (Some v', None) ->
  shape v' = shape v.
Proof.
  destruct v; simpl; try discriminate; intros H;
    apply rebuild_success in H as (inner & H & ->); simpl.
  - reflexivity.
  - f_equal. now apply projectLineString_length.
  - f_equal. now apply projectPolygon_lengths.
  - f_equal. apply rebuild_success in H as (parts & H & ->).
    apply projectEach_success in H. simpl.
    apply Forall2_map_eq with (2 := H). intros l l'.
    apply projectLineString_length.
  - f_equal. apply rebuild_success in H as (parts & H & ->).
    apply projectEach_success in H. simpl.
    apply Forall2_map_eq with (2 := H). intros p p'.
    apply projectPolygon_lengths.
Qed.

End Dispatch.

(** ** The statements at work in the sample world *)

Section Runs.

Import Sample.

Lemma Reproject_same_reference_witness :
  IsSame wgs84 wgs84 = true /\
  supported (VPolygon lot) = true /\
  snd (result (NewCoordinateTransform wgs84 wgs84)) = None /\
  result (Reproject (fst (result (NewCoordinateTransform wgs84 wgs84)))
            (Some (VPolygon lot))) = (Some (VPolygon lot), None).
Proof.
  split; [reflexivity | split; [reflexivity |]].
  apply (Reproject_same_reference (W := world) wgs84 wgs84 (VPolygon lot));
    reflexivity.
Defined.

Lemma NewCoordinateTransform_same_witness :
  IsSame wgs84 wgs84 = true /\
  NewCoordinateTransform wgs84 wgs84 =
  ({| src := None; dst := None; sameProj := true;
      inputDegrees := false; outputDegrees := false |}, None,
   [CallIsSame wgs84 wgs84]).
Proof.
  split; [reflexivity |].
  apply (NewCoordinateTransform_same (W := world) wgs84 wgs84). reflexivity.
Defined.

Lemma project_unsupported_witness :
  supported (VPointZ summit) = false /\
  project (Some (VPointZ summit)) (Some wgs84) (Some sphere) true false =
  ret (None, Some (UnsupportedGeometryError TPointZ)).
Proof.
  split; [reflexivity |].
  apply (project_unsupported (W := world) (VPointZ summit)). reflexivity.
Defined.

Lemma Reproject_identity_any_witness :
  Reproject (fst (result (NewCoordinateTransform wgs84 wgs84)))
    (Some (VPointZ summit)) = ret (Some (VPointZ summit), None).
Proof.
  apply (Reproject_identity_any (W := world)). reflexivity.
Defined.

Lemma degrees_flags_witness :
  IsSame wgs84 sphere = false /\
  (inputDegrees (fst (result (NewCoordinateTransform wgs84 sphere))) = true
   <-> occurs_in "longlat" wgs84 \/ occurs_in "latlong" wgs84) /\
  (outputDegrees (fst (result (NewCoordinateTransform wgs84 sphere))) = true
   <-> occurs_in "longlat" sphere \/ occurs_in "latlong" sphere).
Proof.
  split; [reflexivity |].
  destruct (degrees_flags (W := world) wgs84 sphere eq_refl) as [Hin Hout].
  split.
  - apply (Hin wgs84 NoError); [reflexivity |].
    right. eexists. split; reflexivity.
  - apply (Hout wgs84 NoError (Some wgs84) sphere NoError);
      try reflexivity; right; eexists; split; reflexivity.
Defined.

Lemma NoError_is_success_witness :
  NewCoordinateTransform wgs84 sphere =
  ({| src := Some wgs84; dst := Some sphere; sameProj := false;
      inputDegrees := true; outputDegrees := false |}, None,
   [CallIsSame wgs84 sphere; CallToProj4 wgs84; CallNewProj wgs84;
    CallToProj4 sphere; CallNewProj sphere]) /\
  result (ReadPrj (Some wgs84)) = (wgs84, None).
Proof.
  destruct (NoError_is_success (W := world)) as [Hnew Hread]. split.
  - apply (Hnew wgs84 sphere wgs84 sphere NoError NoError None
             (Some wgs84) (Some sphere));
      try reflexivity; right; eexists; split; reflexivity.
  - apply (Hread (Some wgs84) wgs84 wgs84 (ForeignError "No Error"));
      reflexivity.
Defined.

Lemma NewCoordinateTransform_aborts_witness :
  IsSame wgs84 broken = false /\
  NewCoordinateTransform wgs84 broken =
  ({| src := Some wgs84; dst := None; sameProj := false;
      inputDegrees := true; outputDegrees := false |},
   Some (ForeignError "Unsupported SRS"),
   [CallIsSame wgs84 broken; CallToProj4 wgs84; CallNewProj wgs84;
    CallToProj4 broken]) /\
  Reproject {| src := Some wgs84; dst := None; sameProj := false;
               inputDegrees := true; outputDegrees := false |}
    (Some (VPointZ summit)) =
  ret (None, Some (UnsupportedGeometryError TPointZ)).
Proof.
  split; [reflexivity |].
  assert (Hfail : setup_failure (W := world) wgs84 broken
                    (ForeignError "Unsupported SRS")
                    {| src := Some wgs84; dst := None; sameProj := false;
                       inputDegrees := true; outputDegrees := false |}
                    [CallIsSame wgs84 broken; CallToProj4 wgs84;
                     CallNewProj wgs84; CallToProj4 broken]).
  { apply (dst_text_fails (W := world) wgs84 broken
             (srcproj := wgs84) (err := NoError) (handle := Some wgs84)
             (dstproj := EmptyString)).
    - reflexivity.
    - right. eexists. split; reflexivity.
    - reflexivity.
    - reflexivity.
    - simpl. discriminate. }
  destruct (NewCoordinateTransform_aborts (W := world) (srcRef := wgs84)
              (dstRef := broken) eq_refl Hfail)
    as (Hrun & _ & _ & Hrej).
  split; [exact Hrun |].
  apply (Hrej (VPointZ summit)). reflexivity.
Defined.

Lemma project_fails_at_first_error_witness :
  exists before bad after e,
    coords (VPolygon badLot) = before ++ bad :: after /\
    Forall (fun p => coordError (Some wgs84) (Some sphere) true false p = None)
           before /\
    coordError (Some wgs84) (Some sphere) true false bad = Some e /\
    result (project (Some (VPolygon badLot)) (Some wgs84) (Some sphere)
              true false) = (None, Some e) /\
    calls (project (Some (VPolygon badLot)) (Some wgs84) (Some sphere)
             true false) =
      flat_map (coordCalls (Some wgs84) (Some sphere) true false)
               (before ++ [bad]).
Proof.
  apply (project_fails_at_first_error (W := world) (Some wgs84) (Some sphere)
           true false (VPolygon badLot) (pt 0 130)).
  - reflexivity.
  - simpl. do 5 right. left. reflexivity.
  - vm_compute. discriminate.
Defined.

Lemma project_preserves_shape_witness :
  exists v',
    result (project (Some (VPolygon lot)) (Some wgs84) (Some sphere)
              true false) = (Some v', None) /\
    shape v' = ShPolygon [4; 3].
Proof.
  eexists. split; [vm_compute; reflexivity |].
  change (ShPolygon [4; 3]) with (shape (VPolygon lot)).
  apply (project_preserves_shape (W := world) (Some wgs84) (Some sphere)
           true false).
  vm_compute. reflexivity.
Defined.

End Runs.

(** ** More on the constructor, [Reproject] and [ReadPrj] *)

Section Further.

Context {W : Collaborators}.

(** Rewrites with the known outcomes of the collaborator calls, then
    splits on the unknown ones. *)
Ltac run_setup :=
  unfold NewCoordinateTransform, call, bind, ret, result, calls;
  repeat (cbn -[Contains fatal];
          match goal with
          | H : IsSame _ _ = _ |- _ => rewrite H; clear H
          | H : ToProj4 _ = _ |- _ => rewrite H; clear H
          | H : NewProj _ = _ |- _ => rewrite H; clear H
          | H : fatal _ = _ |- _ => rewrite H; clear H
          end);
  cbn -[Contains fatal].

Ltac split_outcomes :=
  repeat (cbn -[Contains fatal];
          match goal with
          | |- context [IsSame ?a ?b] => destruct (IsSame a b)
          | |- context [ToProj4 ?a] => destruct (ToProj4 a) as [? ?]
          | |- context [fatal ?e] => destruct (fatal e) eqn:?
          | |- context [NewProj ?a] => destruct (NewProj a) as [? [?|]]
          end);
  cbn -[Contains fatal].

(** X3. Once the stream is read, [ReadPrj] never returns an error whose
    text is [No Error]. *)
Theorem ReadPrj_never_NoError (f : Reader) (prj : string) :
  ReadAll f = (prj, None) ->
  forall e, snd (result (ReadPrj f)) = Some e -> Error e <> "No Error".
Proof.
  intros Hread e. unfold ReadPrj, call, bind, ret, result. cbn -[benign].
  rewrite Hread. cbn -[benign].
  destruct (FromWKT (CreateSpatialReference "") prj) as [sr [e'|]];
    cbn -[String.eqb]; [| discriminate].
  destruct (String.eqb (Error e') "No Error") eqn:Hmsg; [discriminate |].
  intros H. injection H as <-. now apply String.eqb_neq.
Qed.

(** X4. Whatever the collaborators answer and wherever the construction
    stops, the [sameProj] field of the transform that comes back is the
    answer of the comparison of the two references. *)
Theorem NewCoordinateTransform_sameProj (srcRef dstRef : SpatialReference) :
  sameProj (fst (result (NewCoordinateTransform srcRef dstRef))) =
  IsSame srcRef dstRef.
Proof. run_setup. split_outcomes; reflexivity. Qed.

(** X5. The constructor makes its collaborator calls in one order and only
    ever stops early: the calls of any run are an initial part of the
    comparison, the source serialization, the source handle, the
    destination serialization and the destination handle.  So no reference
    is serialized twice and nothing of the destination is touched before
    the source handle is built. *)
Theorem NewCoordinateTransform_call_order (srcRef dstRef : SpatialReference) :
  exists rest,
    [CallIsSame srcRef dstRef;
     CallToProj4 srcRef; CallNewProj (fst (ToProj4 srcRef));
     CallToProj4 dstRef; CallNewProj (fst (ToProj4 dstRef))] =
    calls (NewCoordinateTransform srcRef dstRef) ++ rest.
Proof. run_setup. split_outcomes; eexists; reflexivity. Qed.

(** X6. When the source serialization reports an error other than
    [No Error], the transform that comes back with it has every field at
    its zero value: no handle, and [inputDegrees] false even if the text
    returned next to the error names a geographic system. *)
Theorem NewCoordinateTransform_src_text_failure
    (srcRef dstRef : SpatialReference) (srcproj : string) (e : error_value) :
  IsSame srcRef dstRef = false ->
  ToProj4 srcRef = (srcproj, Some e) ->
  Error e <> "No Error" ->
  NewCoordinateTransform srcRef dstRef =
  (newCoordinateTransform, Some e,
   [CallIsSame srcRef dstRef; CallToProj4 srcRef]).
Proof.
  intros Hsame Hs Hmsg. apply fatal_Some in Hmsg. run_setup. reflexivity.
Qed.

(** X7. An error of the source handle construction stops the constructor
    whatever its text, [No Error] included: the string is only overlooked
    on serializations.  The transform that comes back holds what the failed
    construction returned as its source handle and the [inputDegrees] flag
    of the source text, and nothing of the destination, which was not
    serialized. *)
Theorem NewCoordinateTransform_src_handle_failure
    (srcRef dstRef : SpatialReference) (srcproj : string) (err : error)
    (handle : option Proj) (e : error_value) :
  IsSame srcRef dstRef = false ->
  ToProj4 srcRef = (srcproj, err) -> nil_or_NoError err ->
  NewProj srcproj = (handle, Some e) ->
  NewCoordinateTransform srcRef dstRef =
  ({| src := handle; dst := None; sameProj := false;
      inputDegrees :=
        Contains srcproj "longlat" || Contains srcproj "latlong";
      outputDegrees := false |}, Some e,
   [CallIsSame srcRef dstRef; CallToProj4 srcRef; CallNewProj srcproj]).
Proof.
  intros Hsame Hs Hok Hh. apply fatal_nil_or_NoError in Hok.
  run_setup. reflexivity.
Qed.

(** X8. When the destination serialization reports an error other than
    [No Error], the transform that comes back keeps the source handle and
    the source flag that were set before, has no destination handle, and
    its [outputDegrees] is false whatever text came with the error. *)
Theorem NewCoordinateTransform_dst_text_failure
    (srcRef dstRef : SpatialReference) (srcproj dstproj : string)
    (err : error) (handle : option Proj) (e : error_value) :
  IsSame srcRef dstRef = false ->
  ToProj4 srcRef = (srcproj, err) -> nil_or_NoError err ->
  NewProj srcproj = (handle, None) ->
  ToProj4 dstRef = (dstproj, Some e) ->
  Error e <> "No Error" ->
  NewCoordinateTransform srcRef dstRef =
  ({| src := handle; dst := None; sameProj := false;
      inputDegrees :=
        Contains srcproj "longlat" || Contains srcproj "latlong";
      outputDegrees := false |}, Some e,
   [CallIsSame srcRef dstRef; CallToProj4 srcRef; CallNewProj srcproj;
    CallToProj4 dstRef]).
Proof.
  intros Hsame Hs Hok Hh Hd Hmsg.
  apply fatal_nil_or_NoError in Hok. apply fatal_Some in Hmsg.
  run_setup. reflexivity.
Qed.

(** X9. A non-identity construction that returns a nil error went through
    every step: neither serialization reported an error other than
    [No Error], both handle constructions reported none, the transform
    holds the two handles they returned and the two flags of the two
    texts, and the five collaborator calls were made. *)
Theorem NewCoordinateTransform_nil_error (srcRef dstRef : SpatialReference) :
  IsSame srcRef dstRef = false ->
  snd (result (NewCoordinateTransform srcRef dstRef)) = None ->
  let srcproj := fst (ToProj4 srcRef) in
  let dstproj := fst (ToProj4 dstRef) in
  nil_or_NoError (snd (ToProj4 srcRef)) /\
  snd (NewProj srcproj) = None /\
  nil_or_NoError (snd (ToProj4 dstRef)) /\
  snd (NewProj dstproj) = None /\
  NewCoordinateTransform srcRef dstRef =
  ({| src := fst (NewProj srcproj); dst := fst (NewProj dstproj);
      sameProj := false;
      inputDegrees :=
        Contains srcproj "longlat" || Contains srcproj "latlong";
      outputDegrees :=
        Contains dstproj "longlat" || Contains dstproj "latlong" |}, None,
   [CallIsSame srcRef dstRef; CallToProj4 srcRef; CallNewProj srcproj;
    CallToProj4 dstRef; CallNewProj dstproj]).
Proof.
  intros Hsame. run_setup.
  destruct (ToProj4 srcRef) as [srcproj err]. cbn -[Contains fatal].
  destruct (fatal err) eqn:Hok; cbn -[Contains fatal].
  { intros ->. discriminate Hok. }
  destruct (NewProj srcproj) as [handle [e|]]; cbn -[Contains fatal];
    [discriminate |].
  destruct (ToProj4 dstRef) as [dstproj err']. cbn -[Contains fatal].
  destruct (fatal err') eqn:Hok'; cbn -[Contains fatal].
  { intros ->. discriminate Hok'. }
  destruct (NewProj dstproj) as [handle' [e|]]; cbn -[Contains fatal];
    [discriminate |].
  intros _. repeat split; now apply fatal_nil_or_NoError.
Qed.

(** X10. On a transform that is not the identity, [Reproject] rejects a
    geometry value of a shape outside the five: the geometry returned is
    nil, the error is an [UnsupportedGeometryError] with the type of the
    value, and the engine is not called, whatever the handles of the
    transform are. *)
Theorem Reproject_unsupported (ct : CoordinateTransform) (v : Value) :
  sameProj ct = false ->
  supported v = false ->
  Reproject ct (Some v) =
  ret (None, Some (UnsupportedGeometryError (TypeOf v))).
Proof.
  intros Hct Hv. unfold Reproject. rewrite Hct.
  destruct v; try discriminate Hv; reflexivity.
Qed.

(** X11. Whether a shape outside the five is accepted depends on the
    comparison of the references alone: for references that do not compare
    equal, the transform the constructor returns rejects such a value with
    an [UnsupportedGeometryError], also when the construction itself
    failed. *)
Theorem Reproject_unsupported_after_construction
    (srcRef dstRef : SpatialReference) (v : Value) :
  IsSame srcRef dstRef = false ->
  supported v = false ->
  Reproject (fst (result (NewCoordinateTransform srcRef dstRef))) (Some v) =
  ret (None, Some (UnsupportedGeometryError (TypeOf v))).
Proof.
  intros Hsame Hv.
  assert (Hct : sameProj (fst (result (NewCoordinateTransform srcRef dstRef)))
                = false).
  { run_setup. split_outcomes; reflexivity. }
  unfold Reproject. rewrite Hct.
  destruct v; try discriminate Hv; reflexivity.
Qed.

(** X12. The error the dispatcher returns for a shape outside the five
    reads as the prefix of the package followed by the name of the type of
    the value, and so never reads [No Error]. *)
Theorem project_unsupported_message (v : Value) (src dst : option Proj)
    (inputDegrees outputDegrees : bool) :
  supported v = false ->
  exists e,
    snd (result (project (Some v) src dst inputDegrees outputDegrees)) =
      Some e /\
    Error e =
      ("projgeom: unsupported geometry type: " ++ Type_String (TypeOf v))%string /\
    Error e <> "No Error".
Proof.
  intros Hv. exists (UnsupportedGeometryError (TypeOf v)).
  split; [destruct v; try discriminate Hv; reflexivity |].
  split; [reflexivity | discriminate].
Qed.

End Further.

Section FurtherRuns.

Import Sample.

Lemma ReadPrj_read_error_witness :
  ReadPrj None =
  (zeroSpatialReference, Some (ForeignError "unexpected EOF"),
   [CallCreateSpatialReference ""; CallReadAll None]).
Proof.
  apply (ReadPrj_read_error (W := world) None (prj := EmptyString)).
  reflexivity.
Defined.

Lemma ReadPrj_parse_error_witness :
  result (ReadPrj (Some broken)) =
  (EmptyString, Some (ForeignError "Corrupt data")).
Proof.
  apply (ReadPrj_parse_error (W := world) (Some broken) (prj := broken)).
  - reflexivity.
  - reflexivity.
  - simpl. discriminate.
Defined.

Lemma ReadPrj_never_NoError_witness :
  ReadAll (Some broken) = (broken, None) /\
  (forall e,
     snd (result (ReadPrj (Some broken))) = Some e ->
     Error e <> "No Error").
Proof.
  split; [reflexivity |].
  apply (ReadPrj_never_NoError (W := world) (Some broken) (prj := broken)).
  reflexivity.
Defined.

Lemma NewCoordinateTransform_src_text_failure_witness :
  NewCoordinateTransform broken wgs84 =
  (newCoordinateTransform, Some (ForeignError "Unsupported SRS"),
   [CallIsSame broken wgs84; CallToProj4 broken]).
Proof.
  apply (NewCoordinateTransform_src_text_failure (W := world) broken wgs84
           (srcproj := EmptyString)).
  - reflexivity.
  - reflexivity.
  - simpl. discriminate.
Defined.

Lemma NewCoordinateTransform_src_handle_failure_witness :
  NewCoordinateTransform unknown wgs84 =
  ({| src := None; dst := None; sameProj := false;
      inputDegrees := false; outputDegrees := false |},
   Some (ForeignError "unknown projection id"),
   [CallIsSame unknown wgs84; CallToProj4 unknown; CallNewProj unknown]).
Proof.
  apply (NewCoordinateTransform_src_handle_failure (W := world) unknown wgs84
           (srcproj := unknown) (err := NoError) (handle := None)).
  - reflexivity.
  - reflexivity.
  - right. eexists. split; reflexivity.
  - reflexivity.
Defined.

Lemma NewCoordinateTransform_dst_text_failure_witness :
  NewCoordinateTransform wgs84 broken =
  ({| src := Some wgs84; dst := None; sameProj := false;
      inputDegrees := true; outputDegrees := false |},
   Some (ForeignError "Unsupported SRS"),
   [CallIsSame wgs84 broken; CallToProj4 wgs84; CallNewProj wgs84;
    CallToProj4 broken]).
Proof.
  apply (NewCoordinateTransform_dst_text_failure (W := world) wgs84 broken
           (srcproj := wgs84) (dstproj := EmptyString) (err := NoError)
           (handle := Some wgs84)).
  - reflexivity.
  - reflexivity.
  - right. eexists. split; reflexivity.
  - reflexivity.
  - reflexivity.
  - simpl. discriminate.
Defined.

Lemma NewCoordinateTransform_nil_error_witness :
  NewCoordinateTransform wgs84 sphere =
  ({| src := Some wgs84; dst := Some sphere; sameProj := false;
      inputDegrees := true; outputDegrees := false |}, None,
   [CallIsSame wgs84 sphere; CallToProj4 wgs84; CallNewProj wgs84;
    CallToProj4 sphere; CallNewProj sphere]).
Proof.
  apply (NewCoordinateTransform_nil_error (W := world) wgs84 sphere);
    reflexivity.
Defined.

Lemma Reproject_unsupported_witness :
  Reproject (fst (result (NewCoordinateTransform wgs84 sphere)))
    (Some (VPointZ summit)) =
  ret (None, Some (UnsupportedGeometryError TPointZ)).
Proof.
  apply (Reproject_unsupported (W := world)
           (fst (result (NewCoordinateTransform (W := world) wgs84 sphere)))
           (VPointZ summit)); reflexivity.
Defined.

Lemma Reproject_unsupported_after_construction_witness :
  snd (result (NewCoordinateTransform wgs84 broken)) <> None /\
  Reproject (fst (result (NewCoordinateTransform wgs84 broken)))
    (Some (VOther "*geom.Point")) =
  ret (None, Some (UnsupportedGeometryError (TNamed "*geom.Point"))).
Proof.
  split; [simpl; discriminate |].
  apply (Reproject_unsupported_after_construction (W := world) wgs84 broken
           (VOther "*geom.Point")); reflexivity.
Defined.

Lemma project_unsupported_message_witness :
  exists e,
    snd (result (project (Some (VPointZ summit)) (Some wgs84) (Some sphere)
                   true false)) = Some e /\
    Error e = "projgeom: unsupported geometry type: geom.PointZ" /\
    Error e <> "No Error".
Proof.
  apply (project_unsupported_message (W := world) (VPointZ summit)
           (Some wgs84) (Some sphere) true false).
  reflexivity.
Defined.

End FurtherRuns.
